(** * CartTotals: the totals breakdown of a cart or an order

    Shallow embedding of
    [src/modules/common/components/cart-totals/index.tsx].

    The component reads six optional monetary fields and the region of a
    cart (or order), formats each amount through the imported
    [formatAmount] and returns a React element tree.  The embedding keeps

    - JavaScript numbers as IEEE 754 binary64 values ([spec_float]), so that
      [NaN], the two zeros and the infinities are there;
    - [formatAmount] as an external function that may read and change the
      world outside the component and may throw;
    - the JSX expression as a tree, its children evaluated left to right. *)

From Stdlib Require Import List String Bool ZArith.
From Stdlib Require Import Floats.SpecFloat.
From Stdlib Require Import DecimalString.
Import ListNotations.
Open Scope string_scope.

Set Warnings "-register-all".

(** ** JavaScript values of type [number | null | undefined] *)

Definition number : Type := spec_float.

(** The literal [0]. *)
Definition zero : number := S754_zero false.

(** Integer literals such as [1000], rounded as binary64 does. *)
Definition of_Z (z : Z) : number := binary_normalize 53 1024 z 0 false.

Inductive maybe_number : Type :=
| Undefined
| Null
| Num (n : number).

(** ECMAScript [ToBoolean]: [undefined], [null], [+0], [-0] and [NaN] are
    falsy, every other number is truthy. *)
Definition ToBoolean (v : maybe_number) : bool :=
  match v with
  | Undefined | Null => false
  | Num (S754_zero _) | Num S754_nan => false
  | Num (S754_infinity _) | Num (S754_finite _ _ _) => true
  end.

(** [v || 0] *)
Definition or_zero (v : maybe_number) : number :=
  match v with
  | Num n => if ToBoolean v then n else zero
  | Undefined | Null => zero
  end.

(** [v ?? 0], the nullish coalescing that the specification writes. *)
Definition nullish_zero (v : maybe_number) : number :=
  match v with
  | Num n => n
  | Undefined | Null => zero
  end.

(** [x < 0] on numbers. *)
Definition negative (n : number) : bool := SFltb n zero.

(** [Number.isNaN] *)
Definition isNaN (n : number) : bool :=
  match n with
  | S754_nan => true
  | _ => false
  end.

(** [v] is a number, not [NaN], and [v == 0] is false. *)
Definition nonzero_number (v : maybe_number) : Prop :=
  exists n, v = Num n /\ isNaN n = false /\ SFeqb n zero = false.

(** [v] is [null] or [undefined]. *)
Definition nullish (v : maybe_number) : Prop := v = Null \/ v = Undefined.

(** ** The data read by the component and the formatter's argument *)

Module Cart.
Record t (Region : Type) : Type := mk {
  subtotal : maybe_number;
  discount_total : maybe_number;
  gift_card_total : maybe_number;
  tax_total : maybe_number;
  shipping_total : maybe_number;
  total : maybe_number;
  region : Region
}.
Arguments mk {Region}.
Arguments subtotal {Region}.
Arguments discount_total {Region}.
Arguments gift_card_total {Region}.
Arguments tax_total {Region}.
Arguments shipping_total {Region}.
Arguments total {Region}.
Arguments region {Region}.
End Cart.

Module FormatArgs.
Record t (Region : Type) : Type := mk {
  amount : number;
  region : Region;
  includeTaxes : bool
}.
Arguments mk {Region}.
Arguments amount {Region}.
Arguments region {Region}.
Arguments includeTaxes {Region}.
End FormatArgs.

(** ** React elements *)

Inductive prop_value : Type :=
| PStr (s : string)
| PNum (n : number).

Inductive jsx : Type :=
| JText (s : string)
| JBool (b : bool)
| JElem (tag : string) (props : list (string * prop_value)) (children : list jsx).

(** What a test reads from the rendered tree.  [false] renders nothing. *)
Fixpoint textContent (t : jsx) : string :=
  match t with
  | JText s => s
  | JBool _ => ""
  | JElem _ _ cs => String.concat "" (map textContent cs)
  end.

Fixpoint get_prop (name : string) (props : list (string * prop_value))
    : option prop_value :=
  match props with
  | [] => None
  | (k, v) :: ps => if String.eqb k name then Some v else get_prop name ps
  end.

(** One line of the breakdown: the text of its label, the [data-testid] and
    [data-value] of its amount, and the text shown for the amount. *)
Module DisplayRow.
Record t : Type := mk {
  label : string;
  testid : string;
  raw : option prop_value;
  amount : string
}.
End DisplayRow.

(** A row is an element with exactly two children, a label and an element
    that carries a [data-testid]. *)
Definition as_row (t : jsx) : option DisplayRow.t :=
  match t with
  | JElem _ _ [l; JElem vtag vprops vcs] =>
      match get_prop "data-testid" vprops with
      | Some (PStr id) =>
          Some {| DisplayRow.label := textContent l;
                  DisplayRow.testid := id;
                  DisplayRow.raw := get_prop "data-value" vprops;
                  DisplayRow.amount := textContent (JElem vtag vprops vcs) |}
      | _ => None
      end
  | _ => None
  end.

(** The rows of a tree, in document order. *)
Fixpoint rows (t : jsx) : list DisplayRow.t :=
  match as_row t with
  | Some r => [r]
  | None =>
      match t with
      | JElem _ _ cs => flat_map rows cs
      | _ => []
      end
  end.

Definition find_row (label : string) (rs : list DisplayRow.t) : option DisplayRow.t :=
  find (fun r => String.eqb (DisplayRow.label r) label) rs.

Definition has_row (label : string) (rs : list DisplayRow.t) : bool :=
  existsb (fun r => String.eqb (DisplayRow.label r) label) rs.

(** ** Effects: the outside world, the calls made, exceptions *)

Inductive result (Exn A : Type) : Type :=
| Returned (a : A)
| Thrown (e : Exn).
Arguments Returned {Exn A}.
Arguments Thrown {Exn A}.

Section Presenter.

Variables Region World Exn : Type.

(** [formatAmount] of [@lib/util/prices]: imported, not defined here. *)
Variable formatAmount :
  FormatArgs.t Region -> World -> result Exn string * World.

Record state : Type := mkState {
  world : World;
  calls : list (FormatArgs.t Region)
}.

Definition Eff (A : Type) : Type := state -> result Exn A * state.

Definition ret {A} (a : A) : Eff A := fun st => (Returned a, st).

Definition bind {A B} (m : Eff A) (k : A -> Eff B) : Eff B :=
  fun st =>
    match m st with
    | (Returned a, st') => k a st'
    | (Thrown e, st') => (Thrown e, st')
    end.

Notation "x <- m ;; k" := (bind m (fun x => k))
  (at level 61, m at next level, right associativity).

(** The one outward call. *)
Definition call_formatAmount (args : FormatArgs.t Region) : Eff string :=
  fun st =>
    let (r, w) := formatAmount args (world st) in
    (r, {| world := w; calls := calls st ++ [args] |}).

(** Arguments and children are evaluated left to right. *)
Fixpoint sequence {A} (ms : list (Eff A)) : Eff (list A) :=
  match ms with
  | [] => ret []
  | m :: ms' => a <- m ;; l <- sequence ms' ;; ret (a :: l)
  end.

(** [<tag props>children</tag>] *)
Definition elem (tag : string) (props : list (string * prop_value))
    (children : list (Eff jsx)) : Eff jsx :=
  cs <- sequence children ;; ret (JElem tag props cs).

(** Literal JSX text. *)
Definition text (s : string) : Eff jsx := ret (JText s).

(** [{e}] where [e] is a string. *)
Definition expr (e : Eff string) : Eff jsx := s <- e ;; ret (JText s).

(** [{c && e}] where [c] is a boolean. *)
Definition and_then (c : bool) (e : Eff jsx) : Eff jsx :=
  if c then e else ret (JBool false).

Definition className (s : string) : string * prop_value := ("className", PStr s).
Definition data_testid (s : string) : string * prop_value := ("data-testid", PStr s).
Definition data_value (n : number) : string * prop_value := ("data-value", PNum n).

(** ** The component *)

Definition getAmount (data : Cart.t Region) (amount : maybe_number) : Eff string :=
  call_formatAmount
    {| FormatArgs.amount := or_zero amount;
       FormatArgs.region := Cart.region data;
       FormatArgs.includeTaxes := false |}.

Definition CartTotals (data : Cart.t Region) : Eff jsx :=
  let subtotal := Cart.subtotal data in
  let discount_total := Cart.discount_total data in
  let gift_card_total := Cart.gift_card_total data in
  let tax_total := Cart.tax_total data in
  let shipping_total := Cart.shipping_total data in
  let total := Cart.total data in
  let getAmount := getAmount data in
  elem "div" [] [
    elem "div" [className "flex flex-col gap-y-2 txt-medium text-ui-fg-subtle "] [
      elem "div" [className "flex items-center justify-between"] [
        elem "span" [className "flex gap-x-1 items-center"] [
          text "Subtotal";
          elem "Tooltip" [("content", PStr "Cart total excluding shipping and taxes.")] [
            elem "InformationCircleSolid" [("color", PStr "var(--fg-muted)")] []
          ]
        ];
        elem "span" [data_testid "cart-subtotal"; data_value (or_zero subtotal)] [
          expr (getAmount subtotal)
        ]
      ];
      and_then (negb (negb (ToBoolean discount_total))) (
        elem "div" [className "flex items-center justify-between"] [
          elem "span" [] [text "Discount"];
          elem "span" [className "text-ui-fg-interactive";
                       data_testid "cart-discount";
                       data_value (or_zero discount_total)] [
            text "- "; expr (getAmount discount_total)
          ]
        ]
      );
      elem "div" [className "flex items-center justify-between"] [
        elem "span" [] [text "Shipping"];
        elem "span" [data_testid "cart-shipping"; data_value (or_zero shipping_total)] [
          expr (getAmount shipping_total)
        ]
      ];
      elem "div" [className "flex justify-between"] [
        elem "span" [className "flex gap-x-1 items-center "] [text "Taxes"];
        elem "span" [data_testid "cart-taxes"; data_value (or_zero tax_total)] [
          expr (getAmount tax_total)
        ]
      ];
      and_then (negb (negb (ToBoolean gift_card_total))) (
        elem "div" [className "flex items-center justify-between"] [
          elem "span" [] [text "Gift card"];
          elem "span" [className "text-ui-fg-interactive";
                       data_testid "cart-gift-card-amount";
                       data_value (or_zero gift_card_total)] [
            text "- "; expr (getAmount gift_card_total)
          ]
        ]
      )
    ];
    elem "div" [className "h-px w-full border-b border-gray-200 my-4"] [];
    elem "div" [className "flex items-center justify-between text-ui-fg-base mb-2 txt-medium "] [
      elem "span" [] [text "Total"];
      elem "span" [className "txt-xlarge-plus";
                   data_testid "cart-total";
                   data_value (or_zero total)] [
        expr (getAmount total)
      ]
    ];
    elem "div" [className "h-px w-full border-b border-gray-200 mt-4"] []
  ].

(** ** Vocabulary for the statements *)

(** The argument that [getAmount] hands to the formatter for a field. *)
Definition args_for (data : Cart.t Region) (f : maybe_number) : FormatArgs.t Region :=
  {| FormatArgs.amount := or_zero f;
     FormatArgs.region := Cart.region data;
     FormatArgs.includeTaxes := false |}.

(** [s] is a string that the formatter returned for field [f] of [data]. *)
Definition formats (data : Cart.t Region) (f : maybe_number) (s : string) : Prop :=
  exists w w', formatAmount (args_for data f) w = (Returned s, w').

(** [r] is the row of field [f]: its label and test id, the raw value
    [f || 0], and the formatted amount after [prefix]. *)
Definition shows (data : Cart.t Region) (label testid prefix : string)
    (f : maybe_number) (r : DisplayRow.t) : Prop :=
  exists s,
    formats data f s /\
    r = {| DisplayRow.label := label;
           DisplayRow.testid := testid;
           DisplayRow.raw := Some (PNum (or_zero f));
           DisplayRow.amount := prefix ++ s |}.

(** Zero or one row, as [c] says. *)
Definition optional (c : bool) (P : DisplayRow.t -> Prop) (l : list DisplayRow.t) : Prop :=
  if c then exists r, l = [r] /\ P r else l = [].

(** The formatter's result does not depend on the world. *)
Definition referentially_transparent : Prop :=
  forall args w1 w2, fst (formatAmount args w1) = fst (formatAmount args w2).

(** The result of [m] does not depend on the state it starts from. *)
Definition state_independent {A} (m : Eff A) : Prop :=
  forall st1 st2, fst (m st1) = fst (m st2).

(** [m] only adds calls to the log, and each of them satisfies [P]. *)
Definition logs (P : FormatArgs.t Region -> Prop) {A} (m : Eff A) : Prop :=
  forall st, exists new,
    calls (snd (m st)) = (calls st ++ new)%list /\ Forall P new.

(** [m] returns, whatever the state. *)
Definition returns {A} (m : Eff A) : Prop :=
  forall st, exists a st', m st = (Returned a, st').

(** The formatter returns for field [f] of [data], whatever the world. *)
Definition formattable (data : Cart.t Region) (f : maybe_number) : Prop :=
  forall w, exists s w', formatAmount (args_for data f) w = (Returned s, w').

(** The formatter returns for every argument the component hands to it. *)
Definition all_formattable (data : Cart.t Region) : Prop :=
  formattable data (Cart.subtotal data) /\
  (ToBoolean (Cart.discount_total data) = true ->
   formattable data (Cart.discount_total data)) /\
  formattable data (Cart.shipping_total data) /\
  formattable data (Cart.tax_total data) /\
  (ToBoolean (Cart.gift_card_total data) = true ->
   formattable data (Cart.gift_card_total data)) /\
  formattable data (Cart.total data).

(** [m] leaves the world as it is. *)
Definition world_preserving {A} (m : Eff A) : Prop :=
  forall st, world (snd (m st)) = world st.

(** The six fields with the label of their row. *)
Definition labelled_fields (data : Cart.t Region) : list (string * maybe_number) :=
  [("Subtotal", Cart.subtotal data);
   ("Discount", Cart.discount_total data);
   ("Shipping", Cart.shipping_total data);
   ("Taxes", Cart.tax_total data);
   ("Gift card", Cart.gift_card_total data);
   ("Total", Cart.total data)].

(** [data] with every [NaN] field taken away. *)
Definition absent_if_NaN (f : maybe_number) : maybe_number :=
  match f with
  | Num S754_nan => Undefined
  | _ => f
  end.

Definition without_NaN (data : Cart.t Region) : Cart.t Region :=
  {| Cart.subtotal := absent_if_NaN (Cart.subtotal data);
     Cart.discount_total := absent_if_NaN (Cart.discount_total data);
     Cart.gift_card_total := absent_if_NaN (Cart.gift_card_total data);
     Cart.tax_total := absent_if_NaN (Cart.tax_total data);
     Cart.shipping_total := absent_if_NaN (Cart.shipping_total data);
     Cart.total := absent_if_NaN (Cart.total data);
     Cart.region := Cart.region data |}.

(** [m] only adds calls that satisfy [P], and an exception of [m] is one
    that the formatter threw in the last call [m] made. *)
Definition fails_in_formatter (P : FormatArgs.t Region -> Prop) {A} (m : Eff A)
    : Prop :=
  forall st, exists new,
    calls (snd (m st)) = (calls st ++ new)%list /\
    Forall P new /\
    forall e, fst (m st) = Thrown e ->
      exists made failing w w',
        new = (made ++ [failing])%list /\
        formatAmount failing w = (Thrown e, w').

(** Two values of a field that the component cannot tell apart. *)
Definition same_display (f g : maybe_number) : Prop :=
  f = g \/ (ToBoolean f = false /\ ToBoolean g = false).

Definition display_equivalent (data data' : Cart.t Region) : Prop :=
  Cart.region data = Cart.region data' /\
  same_display (Cart.subtotal data) (Cart.subtotal data') /\
  same_display (Cart.discount_total data) (Cart.discount_total data') /\
  same_display (Cart.gift_card_total data) (Cart.gift_card_total data') /\
  same_display (Cart.tax_total data) (Cart.tax_total data') /\
  same_display (Cart.shipping_total data) (Cart.shipping_total data') /\
  same_display (Cart.total data) (Cart.total data').

End Presenter.

Arguments mkState {Region World}.
Arguments world {Region World}.
Arguments calls {Region World}.
Arguments ret {Region World Exn A}.
Arguments bind {Region World Exn A B}.
Arguments call_formatAmount {Region World Exn}.
Arguments sequence {Region World Exn A}.
Arguments elem {Region World Exn}.
Arguments text {Region World Exn}.
Arguments expr {Region World Exn}.
Arguments and_then {Region World Exn}.
Arguments getAmount {Region World Exn}.
Arguments CartTotals {Region World Exn}.
Arguments args_for {Region}.
Arguments formats {Region World Exn}.
Arguments shows {Region World Exn}.
Arguments referentially_transparent {Region World Exn}.
Arguments state_independent {Region World Exn A}.
Arguments logs {Region World Exn} P {A}.
Arguments returns {Region World Exn A}.
Arguments formattable {Region World Exn}.
Arguments all_formattable {Region World Exn}.
Arguments world_preserving {Region World Exn A}.
Arguments labelled_fields {Region}.
Arguments without_NaN {Region}.
Arguments fails_in_formatter {Region World Exn} formatAmount P {A}.
Arguments display_equivalent {Region}.

(** ** A formatter to run the component with

    Prints whole amounts in decimal followed by the currency code, counts
    its calls in the world and throws on anything that is not a whole
    number. *)

Definition to_Z (n : number) : option Z :=
  match n with
  | S754_zero _ => Some 0%Z
  | S754_finite s m e =>
      if (0 <=? e)%Z then Some (cond_Zopp s (Zpos m * 2 ^ e))%Z
      else if (Zpos m mod 2 ^ (- e) =? 0)%Z
           then Some (cond_Zopp s (Zpos m / 2 ^ (- e)))%Z
           else None
  | S754_infinity _ | S754_nan => None
  end.

Definition sample_formatAmount (args : FormatArgs.t string) (w : nat)
    : result string string * nat :=
  (match to_Z (FormatArgs.amount args) with
   | Some z =>
       Returned (NilZero.string_of_int (Z.to_int z) ++ " " ++ FormatArgs.region args
                 ++ (if FormatArgs.includeTaxes args then " incl. tax" else ""))
   | None => Thrown "RangeError"
   end, S w).

(** The same formatter without the counter. *)
Definition quiet_formatAmount (args : FormatArgs.t string) (w : nat)
    : result string string * nat :=
  (fst (sample_formatAmount args w), w).

Definition sample_state : state string nat := mkState 0 [].

Definition sample_tree (data : Cart.t string) : jsx :=
  match fst (CartTotals sample_formatAmount data sample_state) with
  | Returned t => t
  | Thrown _ => JBool false
  end.

Definition sample_final (data : Cart.t string) : state string nat :=
  snd (CartTotals sample_formatAmount data sample_state).

(** Scenario A of the specification. *)
Definition scenario_A : Cart.t string :=
  {| Cart.subtotal := Num (of_Z 1000);
     Cart.discount_total := Num (of_Z 0);
     Cart.gift_card_total := Num (of_Z 0);
     Cart.tax_total := Num (of_Z 100);
     Cart.shipping_total := Num (of_Z 500);
     Cart.total := Num (of_Z 1600);
     Cart.region := "usd" |}.

(** Scenario C of the specification. *)
Definition scenario_C : Cart.t string :=
  {| Cart.subtotal := Null;
     Cart.discount_total := Null;
     Cart.gift_card_total := Null;
     Cart.tax_total := Null;
     Cart.shipping_total := Null;
     Cart.total := Null;
     Cart.region := "usd" |}.

(** A cart whose deductions carry a sign. *)
Definition negative_deductions : Cart.t string :=
  {| Cart.subtotal := Num (of_Z 1000);
     Cart.discount_total := Num (of_Z (-200));
     Cart.gift_card_total := Num (of_Z (-200));
     Cart.tax_total := Num (of_Z 80);
     Cart.shipping_total := Num (of_Z 0);
     Cart.total := Num (of_Z 1480);
     Cart.region := "eur" |}.

(** A cart whose amounts were computed from missing data. *)
Definition all_NaN : Cart.t string :=
  {| Cart.subtotal := Num S754_nan;
     Cart.discount_total := Num S754_nan;
     Cart.gift_card_total := Num S754_nan;
     Cart.tax_total := Num S754_nan;
     Cart.shipping_total := Num S754_nan;
     Cart.total := Num S754_nan;
     Cart.region := "eur" |}.

(** A cart whose total overflowed: the sample formatter throws on it. *)
Definition infinite_total : Cart.t string :=
  {| Cart.subtotal := Num (of_Z 1000);
     Cart.discount_total := Num (of_Z 200);
     Cart.gift_card_total := Null;
     Cart.tax_total := Num (of_Z 80);
     Cart.shipping_total := Num (of_Z 0);
     Cart.total := Num (S754_infinity false);
     Cart.region := "eur" |}.

(** A cart whose subtotal overflowed. *)
Definition infinite_subtotal : Cart.t string :=
  {| Cart.subtotal := Num (S754_infinity false);
     Cart.discount_total := Num (of_Z 200);
     Cart.gift_card_total := Null;
     Cart.tax_total := Num (of_Z 80);
     Cart.shipping_total := Num (of_Z 0);
     Cart.total := Num (of_Z 880);
     Cart.region := "eur" |}.

(** Scenario B with other falsy values in its falsy fields. *)
Definition scenario_B_falsy : Cart.t string :=
  {| Cart.subtotal := Num (of_Z 1000);
     Cart.discount_total := Num (of_Z 200);
     Cart.gift_card_total := Num (S754_zero true);
     Cart.tax_total := Num (of_Z 80);
     Cart.shipping_total := Num S754_nan;
     Cart.total := Num (of_Z 880);
     Cart.region := "eur" |}.

(** Scenario B of the specification. *)
Definition scenario_B : Cart.t string :=
  {| Cart.subtotal := Num (of_Z 1000);
     Cart.discount_total := Num (of_Z 200);
     Cart.gift_card_total := Null;
     Cart.tax_total := Num (of_Z 80);
     Cart.shipping_total := Num (of_Z 0);
     Cart.total := Num (of_Z 880);
     Cart.region := "eur" |}.


(** * Properties *)

Section Facts.

Context {Region World Exn : Type}.
Variable formatAmount :
  FormatArgs.t Region -> World -> result Exn string * World.

Local Abbreviation Eff := (Eff Region World Exn).
Local Abbreviation state := (state Region World).

(** ** Running a computation that returned *)

Lemma ret_returned {A} (a b : A) (st st' : state) :
  @ret Region World Exn A a st = (Returned b, st') -> b = a /\ st' = st.
Proof. unfold ret. intros H. injection H as <- <-. split; reflexivity. Qed.

Lemma bind_returned {A B} (m : Eff A) (k : A -> Eff B) st b st' :
  bind m k st = (Returned b, st') ->
  exists a st1, m st = (Returned a, st1) /\ k a st1 = (Returned b, st').
Proof.
  unfold bind. destruct (m st) as [[a | e] st1].
  - intros H. exists a, st1. split; [reflexivity | exact H].
  - discriminate.
Qed.

Lemma sequence_nil_returned {A} (l : list A) (st st' : state) :
  @sequence Region World Exn A [] st = (Returned l, st') -> l = [] /\ st' = st.
Proof. apply ret_returned. Qed.

Lemma sequence_cons_returned {A} (m : Eff A) ms st l st' :
  sequence (m :: ms) st = (Returned l, st') ->
  exists a st1 l',
    m st = (Returned a, st1) /\
    sequence ms st1 = (Returned l', st') /\ l = a :: l'.
Proof.
  simpl. intros H.
  apply bind_returned in H. destruct H as (a & st1 & Hm & H).
  apply bind_returned in H. destruct H as (l' & st2 & Hs & H).
  apply ret_returned in H. destruct H as [-> ->].
  exists a, st1, l'. auto.
Qed.

Lemma elem_returned tag props (cs : list (Eff jsx)) st t st' :
  elem tag props cs st = (Returned t, st') ->
  exists l, sequence cs st = (Returned l, st') /\ t = JElem tag props l.
Proof.
  unfold elem. intros H.
  apply bind_returned in H. destruct H as (l & st1 & Hs & H).
  apply ret_returned in H. destruct H as [-> ->].
  exists l. auto.
Qed.

Lemma text_returned s (st : state) t st' :
  @text Region World Exn s st = (Returned t, st') -> t = JText s /\ st' = st.
Proof. apply ret_returned. Qed.

Lemma getAmount_calls data f (st : state) :
  calls (snd (getAmount formatAmount data f st)) = (calls st ++ [args_for data f])%list.
Proof.
  unfold getAmount, call_formatAmount, args_for.
  destruct (formatAmount _ (world st)) as [r w]. reflexivity.
Qed.

Lemma getAmount_returned data f (st : state) s st' :
  getAmount formatAmount data f st = (Returned s, st') ->
  formats formatAmount data f s /\
  calls st' = (calls st ++ [args_for data f])%list.
Proof.
  intros H. split.
  - revert H. unfold getAmount, call_formatAmount, formats, args_for.
    destruct (formatAmount _ (world st)) as [r w] eqn:E.
    intros H. injection H as -> _.
    exists (world st), w. exact E.
  - rewrite <- getAmount_calls, H. reflexivity.
Qed.

Lemma expr_getAmount_returned data f (st : state) t st' :
  expr (getAmount formatAmount data f) st = (Returned t, st') ->
  exists s,
    formats formatAmount data f s /\
    calls st' = (calls st ++ [args_for data f])%list /\
    t = JText s.
Proof.
  unfold expr. intros H.
  apply bind_returned in H. destruct H as (s & st1 & Hg & H).
  apply ret_returned in H. destruct H as [-> ->].
  apply getAmount_returned in Hg. destruct Hg as [Hf Hc].
  exists s. auto.
Qed.

Ltac run_returned :=
  repeat match goal with
  | H : elem _ _ _ _ = (Returned _, _) |- _ =>
      apply elem_returned in H; destruct H as (? & H & ->)
  | H : sequence (_ :: _) _ = (Returned _, _) |- _ =>
      let H1 := fresh "Hhd" in
      apply sequence_cons_returned in H;
      destruct H as (? & ? & ? & H1 & H & ->)
  | H : sequence [] _ = (Returned _, _) |- _ =>
      apply sequence_nil_returned in H; destruct H as [-> ->]
  | H : text _ _ = (Returned _, _) |- _ =>
      apply text_returned in H; destruct H as [-> ->]
  | H : expr (getAmount _ _ _) _ = (Returned _, _) |- _ =>
      let s := fresh "s" in
      let Hc := fresh "Hcalls" in
      apply expr_getAmount_returned in H; destruct H as (s & H & Hc & ->)
  | H : and_then true _ _ = (Returned _, _) |- _ => unfold and_then in H
  | H : and_then false _ _ = (Returned _, _) |- _ =>
      unfold and_then in H; apply ret_returned in H; destruct H as [-> ->]
  end.

Ltac rows_shown :=
  repeat match goal with
  | |- _ /\ _ => split
  | |- exists r, [_] = [r] /\ _ => eexists; split; [reflexivity | ]
  | |- exists s, formats _ _ _ s /\ _ => eexists; split; [eassumption | reflexivity]
  | |- [] = [] => reflexivity
  end.

(** The rows of a returned tree, one by one. *)
Lemma CartTotals_rows data st tree st' :
  CartTotals formatAmount data st = (Returned tree, st') ->
  exists r1 o2 r3 r4 o5 r6,
    rows tree = (r1 :: o2 ++ r3 :: r4 :: o5 ++ [r6])%list /\
    shows formatAmount data "Subtotal" "cart-subtotal" "" (Cart.subtotal data) r1 /\
    optional (ToBoolean (Cart.discount_total data))
      (shows formatAmount data "Discount" "cart-discount" "- " (Cart.discount_total data)) o2 /\
    shows formatAmount data "Shipping" "cart-shipping" "" (Cart.shipping_total data) r3 /\
    shows formatAmount data "Taxes" "cart-taxes" "" (Cart.tax_total data) r4 /\
    optional (ToBoolean (Cart.gift_card_total data))
      (shows formatAmount data "Gift card" "cart-gift-card-amount" "- " (Cart.gift_card_total data)) o5 /\
    shows formatAmount data "Total" "cart-total" "" (Cart.total data) r6.
Proof.
  unfold CartTotals. cbv zeta. intros H.
  destruct (ToBoolean (Cart.discount_total data)) eqn:Ed;
    destruct (ToBoolean (Cart.gift_card_total data)) eqn:Eg;
    cbn [negb] in H; run_returned.
  - eexists _, [_], _, _, [_], _; unfold optional, shows.
    split; [reflexivity | rows_shown].
  - eexists _, [_], _, _, [], _; unfold optional, shows.
    split; [reflexivity | rows_shown].
  - eexists _, [], _, _, [_], _; unfold optional, shows.
    split; [reflexivity | rows_shown].
  - eexists _, [], _, _, [], _; unfold optional, shows.
    split; [reflexivity | rows_shown].
Qed.

(** The calls of a run that returned, in the order they were made. *)
Lemma CartTotals_calls data st tree st' :
  CartTotals formatAmount data st = (Returned tree, st') ->
  calls st' =
    (calls st ++
     map (args_for data)
       ([Cart.subtotal data]
        ++ (if ToBoolean (Cart.discount_total data)
            then [Cart.discount_total data] else [])
        ++ [Cart.shipping_total data; Cart.tax_total data]
        ++ (if ToBoolean (Cart.gift_card_total data)
            then [Cart.gift_card_total data] else [])
        ++ [Cart.total data]))%list.
Proof.
  unfold CartTotals. cbv zeta. intros H.
  destruct (ToBoolean (Cart.discount_total data)) eqn:Ed;
    destruct (ToBoolean (Cart.gift_card_total data)) eqn:Eg;
    cbn [negb] in H; run_returned;
    repeat match goal with
    | Hc : calls _ = (calls _ ++ [_])%list |- _ => rewrite Hc; clear Hc
    end;
    simpl; rewrite <- ?app_assoc; reflexivity.
Qed.

(** ** Truthiness and [|| 0] *)

Lemma ToBoolean_nonzero_number v : ToBoolean v = true <-> nonzero_number v.
Proof.
  unfold nonzero_number. split.
  - destruct v as [ | | [sg | sg | | sg m e]]; simpl; try discriminate; intros _.
    + exists (S754_infinity sg). destruct sg; auto.
    + exists (S754_finite sg m e). destruct sg; auto.
  - intros (n & -> & Hnan & Hz).
    destruct n as [sg | sg | | sg m e]; simpl in *; try discriminate; reflexivity.
Qed.

Lemma or_zero_truthy n : ToBoolean (Num n) = true -> or_zero (Num n) = n.
Proof. unfold or_zero. intros ->. reflexivity. Qed.

Lemma or_zero_falsy v : ToBoolean v = false -> or_zero v = zero.
Proof. destruct v; simpl; try reflexivity. intros ->. reflexivity. Qed.

Lemma negative_truthy n : negative n = true -> ToBoolean (Num n) = true.
Proof.
  destruct n as [sg | sg | | sg m e]; simpl; try reflexivity.
  - destruct sg; discriminate.
  - discriminate.
Qed.

Lemma ToBoolean_absent_if_NaN f : ToBoolean (absent_if_NaN f) = ToBoolean f.
Proof. destruct f as [ | | [sg | sg | | sg m e]]; reflexivity. Qed.

Lemma or_zero_absent_if_NaN f : or_zero (absent_if_NaN f) = or_zero f.
Proof. destruct f as [ | | [sg | sg | | sg m e]]; reflexivity. Qed.

(** ** Properties that follow the structure of the component

    A property of computations that [ret] has and [bind] preserves holds
    of the component as soon as it holds of the calls of [getAmount] that
    the component makes. *)

Section Structural.

Variable R : forall A, Eff A -> Prop.
Hypothesis R_ret : forall A (a : A), R A (ret a).
Hypothesis R_bind :
  forall A B (m : Eff A) (k : A -> Eff B),
    R A m -> (forall a, R B (k a)) -> R B (bind m k).

Lemma structural_sequence A (ms : list (Eff A)) :
  Forall (R A) ms -> R (list A) (sequence ms).
Proof.
  induction 1 as [ | m ms Hm _ IH]; simpl.
  - apply R_ret.
  - apply R_bind; [exact Hm | intros a].
    apply R_bind; [exact IH | intros l]. apply R_ret.
Qed.

Lemma structural_elem tag props (cs : list (Eff jsx)) :
  Forall (R jsx) cs -> R jsx (elem tag props cs).
Proof.
  intros H. unfold elem.
  apply R_bind; [apply structural_sequence; exact H | intros l; apply R_ret].
Qed.

Lemma structural_text s : R jsx (text s).
Proof. apply R_ret. Qed.

Lemma structural_expr (e : Eff string) : R string e -> R jsx (expr e).
Proof. intros H. apply R_bind; [exact H | intros s; apply R_ret]. Qed.

Lemma structural_and_then c (e : Eff jsx) :
  (c = true -> R jsx e) -> R jsx (and_then c e).
Proof. intros H. destruct c; [apply H; reflexivity | apply R_ret]. Qed.

Lemma structural_CartTotals data :
  R string (getAmount formatAmount data (Cart.subtotal data)) ->
  (ToBoolean (Cart.discount_total data) = true ->
   R string (getAmount formatAmount data (Cart.discount_total data))) ->
  R string (getAmount formatAmount data (Cart.shipping_total data)) ->
  R string (getAmount formatAmount data (Cart.tax_total data)) ->
  (ToBoolean (Cart.gift_card_total data) = true ->
   R string (getAmount formatAmount data (Cart.gift_card_total data))) ->
  R string (getAmount formatAmount data (Cart.total data)) ->
  R jsx (CartTotals formatAmount data).
Proof.
  intros Hsubtotal Hdiscount Hshipping Htax Hgift Htotal.
  unfold CartTotals; cbv zeta.
  repeat first
    [ apply structural_elem | apply structural_text | apply structural_expr
    | apply structural_and_then; rewrite negb_involutive; intros ?
    | apply Forall_cons | apply Forall_nil | solve [auto] ].
Qed.

End Structural.

(** *** The calls that are logged *)

Lemma logs_ret (P : FormatArgs.t Region -> Prop) A (a : A) :
  logs P (ret a : Eff A).
Proof.
  intros st. exists []. simpl. rewrite app_nil_r. split; constructor.
Qed.

Lemma logs_bind (P : FormatArgs.t Region -> Prop) A B (m : Eff A) (k : A -> Eff B) :
  logs P m -> (forall a, logs P (k a)) -> logs P (bind m k).
Proof.
  intros Hm Hk st. unfold bind.
  destruct (Hm st) as (n1 & E1 & F1).
  destruct (m st) as [[a | e] st1]; simpl in E1.
  - destruct (Hk a st1) as (n2 & E2 & F2).
    exists (n1 ++ n2)%list. rewrite E2, E1, app_assoc.
    split; [reflexivity | apply Forall_app; split; assumption].
  - exists n1. simpl. split; assumption.
Qed.

Lemma logs_getAmount (P : FormatArgs.t Region -> Prop) data f :
  P (args_for data f) -> logs P (getAmount formatAmount data f).
Proof.
  intros Hargs st. exists [args_for data f].
  split; [apply getAmount_calls | constructor; [exact Hargs | constructor]].
Qed.

Lemma CartTotals_logs data :
  logs (fun args => FormatArgs.region args = Cart.region data /\
                    FormatArgs.includeTaxes args = false)
       (CartTotals formatAmount data).
Proof.
  apply (structural_CartTotals (fun A => logs _) (logs_ret _) (logs_bind _));
    intros; apply logs_getAmount; split; reflexivity.
Qed.

(** *** Independence of the state *)

Lemma independent_ret A (a : A) : state_independent (ret a : Eff A).
Proof. intros st1 st2. reflexivity. Qed.

Lemma independent_bind A B (m : Eff A) (k : A -> Eff B) :
  state_independent m -> (forall a, state_independent (k a)) ->
  state_independent (bind m k).
Proof.
  intros Hm Hk st1 st2. unfold bind.
  specialize (Hm st1 st2).
  destruct (m st1) as [[a1 | e1] s1], (m st2) as [[a2 | e2] s2];
    simpl in Hm; try discriminate.
  - injection Hm as ->. apply Hk.
  - injection Hm as ->. reflexivity.
Qed.

Lemma independent_getAmount data f :
  referentially_transparent formatAmount ->
  state_independent (getAmount formatAmount data f).
Proof.
  intros RT st1 st2. unfold getAmount, call_formatAmount.
  match goal with
  | |- context [formatAmount ?args (world st1)] =>
      specialize (RT args (world st1) (world st2));
      destruct (formatAmount args (world st1)), (formatAmount args (world st2))
  end.
  exact RT.
Qed.

Lemma CartTotals_state_independent data :
  referentially_transparent formatAmount ->
  state_independent (CartTotals formatAmount data).
Proof.
  intros RT.
  apply (structural_CartTotals (fun A => state_independent)
           independent_ret independent_bind);
    intros; apply independent_getAmount; exact RT.
Qed.

(** *** Returning *)

Lemma returns_ret A (a : A) : returns (ret a : Eff A).
Proof. intros st. exists a, st. reflexivity. Qed.

Lemma returns_bind A B (m : Eff A) (k : A -> Eff B) :
  returns m -> (forall a, returns (k a)) -> returns (bind m k).
Proof.
  intros Hm Hk st. unfold bind.
  destruct (Hm st) as (a & st1 & ->). apply Hk.
Qed.

Lemma returns_getAmount data f :
  formattable formatAmount data f -> returns (getAmount formatAmount data f).
Proof.
  intros H st. unfold getAmount, call_formatAmount.
  destruct (H (world st)) as (s & w' & E). unfold args_for in E. rewrite E.
  eexists _, _. reflexivity.
Qed.

Lemma CartTotals_returns data :
  all_formattable formatAmount data -> returns (CartTotals formatAmount data).
Proof.
  intros (Hs & Hd & Hsh & Ht & Hg & Htot).
  apply (structural_CartTotals (fun A => returns) returns_ret returns_bind);
    intros; apply returns_getAmount; auto.
Qed.

(** *** Leaving the world alone *)

Lemma preserving_ret A (a : A) : world_preserving (ret a : Eff A).
Proof. intros st. reflexivity. Qed.

Lemma preserving_bind A B (m : Eff A) (k : A -> Eff B) :
  world_preserving m -> (forall a, world_preserving (k a)) ->
  world_preserving (bind m k).
Proof.
  intros Hm Hk st. unfold bind. specialize (Hm st).
  destruct (m st) as [[a | e] st1]; simpl in Hm.
  - rewrite Hk. exact Hm.
  - exact Hm.
Qed.

Lemma preserving_getAmount data f :
  (forall args w, snd (formatAmount args w) = w) ->
  world_preserving (getAmount formatAmount data f).
Proof.
  intros quiet st. unfold getAmount, call_formatAmount.
  match goal with
  | |- context [formatAmount ?args (world st)] =>
      specialize (quiet args (world st));
      destruct (formatAmount args (world st)) as [r w]
  end.
  exact quiet.
Qed.

Lemma CartTotals_world_preserving data :
  (forall args w, snd (formatAmount args w) = w) ->
  world_preserving (CartTotals formatAmount data).
Proof.
  intros quiet.
  apply (structural_CartTotals (fun A => world_preserving)
           preserving_ret preserving_bind);
    intros; apply preserving_getAmount; exact quiet.
Qed.

(** ** Reading the rows *)

(** Replaces [rows tree] by the rows themselves, in the four cases of the two
    optional rows. *)
Ltac rows_cases Hrun :=
  let Hrows := fresh "Hrows" in
  let H2 := fresh "Hdiscount" in
  let H5 := fresh "Hgift" in
  let Ed := fresh "Ed" in
  let Eg := fresh "Eg" in
  destruct (CartTotals_rows _ _ _ _ Hrun)
    as (? & ? & ? & ? & ? & ? & Hrows
        & (? & ? & ->) & H2 & (? & ? & ->) & (? & ? & ->) & H5 & (? & ? & ->));
  unfold optional, shows in H2, H5;
  destruct (ToBoolean (Cart.discount_total _)) eqn:Ed;
  [destruct H2 as (? & -> & ? & ? & ->) | rewrite H2 in Hrows; clear H2];
  (destruct (ToBoolean (Cart.gift_card_total _)) eqn:Eg;
   [destruct H5 as (? & -> & ? & ? & ->) | rewrite H5 in Hrows; clear H5]);
  rewrite Hrows in *; clear Hrows; cbn [app] in *.

Lemma optional_rows_truthy data st tree st' :
  CartTotals formatAmount data st = (Returned tree, st') ->
  has_row "Discount" (rows tree) = ToBoolean (Cart.discount_total data) /\
  has_row "Gift card" (rows tree) = ToBoolean (Cart.gift_card_total data).
Proof.
  intros Hrun. rows_cases Hrun; split; reflexivity.
Qed.

Lemma args_for_falsy (data : Cart.t Region) f g :
  ToBoolean f = false -> ToBoolean g = false -> args_for data f = args_for data g.
Proof.
  intros Hf Hg. unfold args_for. rewrite (or_zero_falsy _ Hf), (or_zero_falsy _ Hg).
  reflexivity.
Qed.

Lemma formats_falsy data f g s :
  ToBoolean f = false -> ToBoolean g = false ->
  formats formatAmount data f s -> formats formatAmount data g s.
Proof.
  intros Hf Hg. unfold formats. rewrite (args_for_falsy data f g Hf Hg). auto.
Qed.

(** A row whose field is falsy exposes the raw value [0] and shows what the
    formatter returns for [0]. *)
Lemma rows_falsy_field data st tree st' :
  CartTotals formatAmount data st = (Returned tree, st') ->
  forall L f r,
    In (L, f) (labelled_fields data) -> ToBoolean f = false ->
    In r (rows tree) -> DisplayRow.label r = L ->
    DisplayRow.raw r = Some (PNum zero) /\
    formats formatAmount data Undefined (DisplayRow.amount r).
Proof.
  intros Hrun L f r HL Hf Hr Hlabel.
  assert (Hshown : exists s,
             formats formatAmount data f s /\
             DisplayRow.raw r = Some (PNum (or_zero f)) /\
             DisplayRow.amount r = s).
  { rows_cases Hrun;
      simpl in HL, Hr;
      repeat (destruct Hr as [<- | Hr]; [ | ]); try contradiction;
      simpl in Hlabel; subst L;
      repeat (destruct HL as [HL | HL]; [ | ]); try contradiction;
      try discriminate HL;
      injection HL as <-; try congruence;
      eexists; (split; [eassumption | split; reflexivity]). }
  destruct Hshown as (s & Hs & -> & ->).
  rewrite (or_zero_falsy _ Hf). split; [reflexivity | ].
  apply (formats_falsy data f Undefined s Hf eq_refl Hs).
Qed.

(** * The claims *)

(** C1.  The component returns a tree whenever the formatter returns for
    the amounts handed to it, and in every tree it returns the Discount row
    is there if and only if [discount_total] is a number that is neither
    zero nor [NaN] (that is, truthy), and the Gift card row if and only if
    [gift_card_total] is; a field that is [null], [undefined], [0] or [-0]
    hides its row. *)
Theorem C1_optional_rows_iff_truthy data st :
  (all_formattable formatAmount data -> returns (CartTotals formatAmount data)) /\
  (forall tree st',
   CartTotals formatAmount data st = (Returned tree, st') ->
   (has_row "Discount" (rows tree) = true <->
    nonzero_number (Cart.discount_total data)) /\
   (has_row "Gift card" (rows tree) = true <->
    nonzero_number (Cart.gift_card_total data)) /\
   (forall f, nullish f \/ f = Num zero \/ f = Num (S754_zero true) ->
      (Cart.discount_total data = f -> has_row "Discount" (rows tree) = false) /\
      (Cart.gift_card_total data = f -> has_row "Gift card" (rows tree) = false))).
Proof.
  split; [apply CartTotals_returns | ].
  intros tree st' Hrun.
  destruct (optional_rows_truthy _ _ _ _ Hrun) as [-> ->].
  split; [apply ToBoolean_nonzero_number | ].
  split; [apply ToBoolean_nonzero_number | ].
  intros f Hf.
  assert (ToBoolean f = false) as Hfalse
    by (destruct Hf as [[-> | ->] | [-> | ->]]; reflexivity).
  split; intros ->; exact Hfalse.
Qed.

(** C2, amended.  The amount [getAmount] hands to the formatter is [f || 0]:
    it is [0] when [f] is [null], [undefined], [NaN], [0] or [-0], and [f]
    itself for every other number; it is [f ?? 0] unless [f] is [NaN] or
    [-0]. *)
Theorem C2_effective_value_or_zero data f st :
  calls (snd (getAmount formatAmount data f st)) =
    (calls st ++ [ {| FormatArgs.amount := or_zero f;
                      FormatArgs.region := Cart.region data;
                      FormatArgs.includeTaxes := false |} ])%list /\
  (nullish f \/ f = Num S754_nan \/ f = Num zero \/ f = Num (S754_zero true) ->
   or_zero f = zero) /\
  (forall n, f = Num n -> isNaN n = false -> SFeqb n zero = false ->
   or_zero f = n) /\
  (f <> Num S754_nan -> f <> Num (S754_zero true) ->
   or_zero f = nullish_zero f).
Proof.
  split; [apply getAmount_calls | ].
  split; [ | split].
  - intros [[-> | ->] | [-> | [-> | ->]]]; reflexivity.
  - intros n -> Hnan Hz. apply or_zero_truthy.
    apply ToBoolean_nonzero_number. exists n. auto.
  - intros Hnan Hneg.
    destruct f as [ | | [[ | ] | sg | | sg m e]]; try reflexivity; congruence.
Qed.

Lemma fixed_rows_found data st tree st' :
  CartTotals formatAmount data st = (Returned tree, st') ->
  forall L, In L ["Subtotal"; "Shipping"; "Taxes"; "Total"] ->
  exists r, find_row L (rows tree) = Some r /\
            In r (rows tree) /\ DisplayRow.label r = L.
Proof.
  intros Hrun L HL.
  assert (exists r, find_row L (rows tree) = Some r) as [r Hr].
  { rows_cases Hrun;
      simpl in HL; repeat (destruct HL as [<- | HL]; [eexists; reflexivity | ]);
      contradiction. }
  exists r. split; [exact Hr | ].
  apply find_some in Hr. destruct Hr as [Hin Heq].
  apply String.eqb_eq in Heq. auto.
Qed.

(** C3.  In every returned tree a row whose field is [null] or [undefined]
    exposes the raw value [0], and the four fixed rows are there to expose
    it; [f || 0] is [0] for such a field.  When all six fields are [null] or [undefined] and the formatter
    returns for [0], the component returns: its tree has the four fixed
    rows and no other, each with the raw value [0] and a string the
    formatter returned for [0]. *)
Theorem C3_absent_fields_show_zero data :
  (forall st tree st',
     CartTotals formatAmount data st = (Returned tree, st') ->
     (forall L f r,
        In (L, f) (labelled_fields data) -> nullish f ->
        In r (rows tree) -> DisplayRow.label r = L ->
        DisplayRow.raw r = Some (PNum zero)) /\
     (forall L f,
        In (L, f) (labelled_fields data) -> nullish f ->
        In L ["Subtotal"; "Shipping"; "Taxes"; "Total"] ->
        exists r, find_row L (rows tree) = Some r /\
                  DisplayRow.raw r = Some (PNum zero))) /\
  (forall f, nullish f -> or_zero f = zero) /\
  (Forall (fun lf => nullish (snd lf)) (labelled_fields data) ->
   formattable formatAmount data Null ->
   forall st, exists tree st' s1 s3 s4 s6,
     CartTotals formatAmount data st = (Returned tree, st') /\
     rows tree =
       [DisplayRow.mk "Subtotal" "cart-subtotal" (Some (PNum zero)) s1;
        DisplayRow.mk "Shipping" "cart-shipping" (Some (PNum zero)) s3;
        DisplayRow.mk "Taxes" "cart-taxes" (Some (PNum zero)) s4;
        DisplayRow.mk "Total" "cart-total" (Some (PNum zero)) s6] /\
     Forall (formats formatAmount data Null) [s1; s3; s4; s6]).
Proof.
  assert (Hnullish : forall f, nullish f -> ToBoolean f = false)
    by (intros f [-> | ->]; reflexivity).
  split; [ | split].
  - intros st tree st' Hrun. split.
    + intros L f r HL Hf Hr Hlabel.
      apply (rows_falsy_field _ _ _ _ Hrun L f r HL (Hnullish f Hf) Hr Hlabel).
    + intros L f HL Hf Hfixed.
      destruct (fixed_rows_found _ _ _ _ Hrun L Hfixed) as (r & Hfind & Hr & Hlabel).
      exists r. split; [exact Hfind | ].
      apply (rows_falsy_field _ _ _ _ Hrun L f r HL (Hnullish f Hf) Hr Hlabel).
  - intros f Hf. apply or_zero_falsy, Hnullish, Hf.
  - intros Hall Hzero st.
    unfold labelled_fields in Hall.
    repeat match goal with
    | H : Forall _ (_ :: _) |- _ =>
        let Hhd := fresh "Hhd" in
        apply Forall_cons_iff in H; destruct H as [Hhd H];
        simpl in Hhd; apply Hnullish in Hhd
    end.
    assert (Hfmt : forall f, ToBoolean f = false -> formattable formatAmount data f).
    { intros f Hf. unfold formattable.
      rewrite (args_for_falsy data f Null Hf eq_refl). exact Hzero. }
    assert (Hall_fmt : all_formattable formatAmount data)
      by (unfold all_formattable; repeat split; intros; apply Hfmt; assumption).
    destruct (CartTotals_returns data Hall_fmt st) as (tree & st' & Hrun).
    exists tree, st'.
    rows_cases Hrun; try congruence.
    do 4 eexists. split; [exact Hrun | ].
    rewrite !or_zero_falsy by assumption.
    split; [reflexivity | ].
    repeat (apply Forall_cons;
            [eapply formats_falsy; [ | reflexivity | eassumption]; assumption | ]).
    apply Forall_nil.
Qed.

(** C4.  The component returns a tree whenever the formatter returns for
    the amounts handed to it, and in every tree it returns the Subtotal,
    Shipping, Taxes and Total rows are there, whatever the fields hold. *)
Theorem C4_fixed_rows_always_present data st :
  (all_formattable formatAmount data -> returns (CartTotals formatAmount data)) /\
  (forall tree st',
   CartTotals formatAmount data st = (Returned tree, st') ->
   forall L, In L ["Subtotal"; "Shipping"; "Taxes"; "Total"] ->
   has_row L (rows tree) = true).
Proof.
  split; [apply CartTotals_returns | ].
  intros tree st' Hrun L HL.
  rows_cases Hrun;
    simpl in HL; repeat (destruct HL as [<- | HL]; [reflexivity | ]);
    contradiction.
Qed.

(** C5.  The component returns a tree whenever the formatter returns for
    the amounts handed to it, and the labels of the rows of every returned
    tree are Subtotal, Discount, Shipping, Taxes, Gift card, Total in this
    order, the two optional ones left out when their field is falsy. *)
Theorem C5_rows_in_fixed_order data st :
  (all_formattable formatAmount data -> returns (CartTotals formatAmount data)) /\
  (forall tree st',
   CartTotals formatAmount data st = (Returned tree, st') ->
   map DisplayRow.label (rows tree) =
     (["Subtotal"]
      ++ (if ToBoolean (Cart.discount_total data) then ["Discount"] else [])
      ++ ["Shipping"; "Taxes"]
      ++ (if ToBoolean (Cart.gift_card_total data) then ["Gift card"] else [])
      ++ ["Total"])%list).
Proof.
  split; [apply CartTotals_returns | ].
  intros tree st' Hrun. rows_cases Hrun; reflexivity.
Qed.

(** C6.  The component returns a tree whenever the formatter returns for
    the amounts handed to it, and in every returned tree the amount of the
    Discount row and of the Gift card row is ["- "] followed by the string
    the formatter returned for the field; the amount of the Subtotal,
    Shipping, Taxes and Total rows is the formatter's string and nothing
    else. *)
Theorem C6_negative_marker data st :
  (all_formattable formatAmount data -> returns (CartTotals formatAmount data)) /\
  forall tree st',
  CartTotals formatAmount data st = (Returned tree, st') ->
  forall r, In r (rows tree) ->
    (DisplayRow.label r = "Discount" ->
     exists s, formats formatAmount data (Cart.discount_total data) s /\
               DisplayRow.amount r = "- " ++ s) /\
    (DisplayRow.label r = "Gift card" ->
     exists s, formats formatAmount data (Cart.gift_card_total data) s /\
               DisplayRow.amount r = "- " ++ s) /\
    (DisplayRow.label r = "Subtotal" ->
     formats formatAmount data (Cart.subtotal data) (DisplayRow.amount r)) /\
    (DisplayRow.label r = "Shipping" ->
     formats formatAmount data (Cart.shipping_total data) (DisplayRow.amount r)) /\
    (DisplayRow.label r = "Taxes" ->
     formats formatAmount data (Cart.tax_total data) (DisplayRow.amount r)) /\
    (DisplayRow.label r = "Total" ->
     formats formatAmount data (Cart.total data) (DisplayRow.amount r)).
Proof.
  split; [apply CartTotals_returns | ].
  intros tree st' Hrun r Hr.
  rows_cases Hrun;
    simpl in Hr; repeat (destruct Hr as [<- | Hr]; [ | ]); try contradiction;
    simpl; repeat split; intros Hlabel; try discriminate Hlabel;
    first [ assumption | eexists; split; [eassumption | reflexivity] ].
Qed.

(** C7.  Whatever the component does to the world it does through
    [formatAmount]: every call it adds to the log carries the region of the
    record and [includeTaxes = false], whether the run returns or throws,
    and a formatter that leaves the world alone leaves it unchanged after
    the whole run. *)
Theorem C7_calls_pass_region_and_no_taxes data st :
  (exists new,
     calls (snd (CartTotals formatAmount data st)) = (calls st ++ new)%list /\
     Forall (fun args => FormatArgs.region args = Cart.region data /\
                         FormatArgs.includeTaxes args = false) new) /\
  ((forall args w, snd (formatAmount args w) = w) ->
   world (snd (CartTotals formatAmount data st)) = world st).
Proof.
  split.
  - apply CartTotals_logs.
  - intros quiet. apply CartTotals_world_preserving. exact quiet.
Qed.

(** C8.  With a referentially transparent formatter the result of the
    component (the tree, or the exception) does not depend on the state it
    is run in: two runs on the same record agree, in particular a run and
    the run that follows it, and the rows of the two trees are the same. *)
Theorem C8_deterministic_and_idempotent data st1 st2 :
  referentially_transparent formatAmount ->
  fst (CartTotals formatAmount data st1) = fst (CartTotals formatAmount data st2) /\
  fst (CartTotals formatAmount data (snd (CartTotals formatAmount data st1))) =
    fst (CartTotals formatAmount data st1) /\
  (forall t1 t2,
     fst (CartTotals formatAmount data st1) = Returned t1 ->
     fst (CartTotals formatAmount data st2) = Returned t2 ->
     rows t1 = rows t2).
Proof.
  intros RT.
  pose proof (CartTotals_state_independent data RT) as Hindep.
  split; [apply Hindep | ].
  split; [apply Hindep | ].
  intros t1 t2 H1 H2. rewrite (Hindep st1 st2), H2 in H1.
  injection H1 as ->. reflexivity.
Qed.

Ltac negative_deduction Hrun Hneg Hfield n :=
  pose proof (negative_truthy n Hneg) as Htruthy;
  pose proof (or_zero_truthy n Htruthy) as Hor;
  pose proof (CartTotals_calls _ _ _ _ Hrun) as Hcalls;
  rows_cases Hrun;
  rewrite Hfield in *; try congruence;
  unfold formats, args_for in *; rewrite ?Hfield, ?Hor in *;
  eexists; eexists;
  (split; [reflexivity | ]);
  (split; [cbn [DisplayRow.raw]; rewrite ?Hfield, ?Hor; reflexivity | ]);
  (split; [eassumption | ]);
  (split; [rewrite Hcalls; apply in_or_app; right; cbn [map In]; rewrite ?Hor; auto 10 | ]);
  (split; [reflexivity | intros ? ->; reflexivity]).

(** C9.  The component returns a tree whenever the formatter returns for
    the amounts handed to it.  When [discount_total] (or [gift_card_total])
    is a negative number [n], every returned tree has the row: its raw value is [n], its amount
    is ["- "] followed by a string the formatter returned for [n] itself,
    which is among the calls made; if that string starts with a minus sign
    the row shows two. *)
Theorem C9_negative_deduction_shown_twice_negated data st n :
  negative n = true ->
  let passed := {| FormatArgs.amount := n;
                   FormatArgs.region := Cart.region data;
                   FormatArgs.includeTaxes := false |} in
  (all_formattable formatAmount data -> returns (CartTotals formatAmount data)) /\
  forall tree st',
  CartTotals formatAmount data st = (Returned tree, st') ->
  (Cart.discount_total data = Num n ->
   exists r s,
     find_row "Discount" (rows tree) = Some r /\
     DisplayRow.raw r = Some (PNum n) /\
     (exists w w', formatAmount passed w = (Returned s, w')) /\
     In passed (calls st') /\
     DisplayRow.amount r = "- " ++ s /\
     (forall s', s = "-" ++ s' -> DisplayRow.amount r = "- -" ++ s')) /\
  (Cart.gift_card_total data = Num n ->
   exists r s,
     find_row "Gift card" (rows tree) = Some r /\
     DisplayRow.raw r = Some (PNum n) /\
     (exists w w', formatAmount passed w = (Returned s, w')) /\
     In passed (calls st') /\
     DisplayRow.amount r = "- " ++ s /\
     (forall s', s = "-" ++ s' -> DisplayRow.amount r = "- -" ++ s')).
Proof.
  intros Hneg passed. subst passed.
  split; [apply CartTotals_returns | ].
  intros tree st' Hrun.
  split; intros Hfield.
  - negative_deduction Hrun Hneg Hfield n.
  - negative_deduction Hrun Hneg Hfield n.
Qed.

(** C10.  A [NaN] field is treated as an absent one: the component does
    the same on the record and on the record with its [NaN] fields taken
    away; [getAmount] hands [0] to the formatter for [NaN]; in every
    returned tree a row whose field is [NaN] exposes the raw value [0] and
    shows a string the formatter returned for [0], and the Discount and
    Gift card rows are not there when their field is [NaN]; the component
    returns a tree whenever the formatter returns for the amounts handed to
    it. *)
Theorem C10_NaN_treated_as_absent data :
  (forall st, CartTotals formatAmount data st =
              CartTotals formatAmount (without_NaN data) st) /\
  (forall st,
     calls (snd (getAmount formatAmount data (Num S754_nan) st)) =
       (calls st ++ [ {| FormatArgs.amount := zero;
                         FormatArgs.region := Cart.region data;
                         FormatArgs.includeTaxes := false |} ])%list) /\
  (forall st tree st',
     CartTotals formatAmount data st = (Returned tree, st') ->
     (Cart.discount_total data = Num S754_nan ->
      has_row "Discount" (rows tree) = false) /\
     (Cart.gift_card_total data = Num S754_nan ->
      has_row "Gift card" (rows tree) = false) /\
     (forall L f r,
        In (L, f) (labelled_fields data) -> f = Num S754_nan ->
        In r (rows tree) -> DisplayRow.label r = L ->
        DisplayRow.raw r = Some (PNum zero) /\
        formats formatAmount data Undefined (DisplayRow.amount r))) /\
  (all_formattable formatAmount data -> returns (CartTotals formatAmount data)).
Proof.
  split; [ | split; [ | split; [ | apply CartTotals_returns]]].
  - intros st. unfold CartTotals, getAmount, without_NaN. cbn [Cart.subtotal
      Cart.discount_total Cart.gift_card_total Cart.tax_total
      Cart.shipping_total Cart.total Cart.region].
    rewrite !ToBoolean_absent_if_NaN, !or_zero_absent_if_NaN. reflexivity.
  - intros st. apply getAmount_calls.
  - intros st tree st' Hrun.
    destruct (optional_rows_truthy _ _ _ _ Hrun) as [-> ->].
    split; [intros ->; reflexivity | ].
    split; [intros ->; reflexivity | ].
    intros L f r HL -> Hr Hlabel.
    apply (rows_falsy_field _ _ _ _ Hrun L (Num S754_nan) r HL eq_refl Hr Hlabel).
Qed.

(** * Further properties of the component *)

(** ** Exceptions *)

Lemma fails_in_formatter_ret (P : FormatArgs.t Region -> Prop) A (a : A) :
  fails_in_formatter formatAmount P (ret a : Eff A).
Proof.
  intros st. exists []. simpl. rewrite app_nil_r.
  split; [reflexivity | ]. split; [constructor | discriminate].
Qed.

Lemma fails_in_formatter_bind (P : FormatArgs.t Region -> Prop)
    A B (m : Eff A) (k : A -> Eff B) :
  fails_in_formatter formatAmount P m ->
  (forall a, fails_in_formatter formatAmount P (k a)) ->
  fails_in_formatter formatAmount P (bind m k).
Proof.
  intros Hm Hk st. unfold bind.
  destruct (Hm st) as (n1 & E1 & F1 & T1).
  destruct (m st) as [[a | e0] st1]; simpl in E1, T1.
  - destruct (Hk a st1) as (n2 & E2 & F2 & T2).
    exists (n1 ++ n2)%list. rewrite E2, E1, app_assoc.
    split; [reflexivity | ].
    split; [apply Forall_app; split; assumption | ].
    intros e He. destruct (T2 e He) as (made & failing & w & w' & -> & Hthrow).
    exists (n1 ++ made)%list, failing, w, w'.
    rewrite app_assoc. split; [reflexivity | exact Hthrow].
  - exists n1. simpl. split; [exact E1 | ]. split; [exact F1 | ].
    intros e He. injection He as <-. apply T1. reflexivity.
Qed.

Lemma fails_in_formatter_getAmount (P : FormatArgs.t Region -> Prop) data f :
  P (args_for data f) ->
  fails_in_formatter formatAmount P (getAmount formatAmount data f).
Proof.
  intros Hargs st. exists [args_for data f].
  split; [apply getAmount_calls | ].
  split; [constructor; [exact Hargs | constructor] | ].
  unfold getAmount, call_formatAmount, args_for.
  destruct (formatAmount _ (world st)) as [r w] eqn:E. simpl.
  intros e ->. eexists [], _, (world st), w. split; [reflexivity | exact E].
Qed.

Lemma CartTotals_fails_in_formatter data :
  fails_in_formatter formatAmount
    (fun args => exists f, In f (map snd (labelled_fields data)) /\
                           args = args_for data f)
    (CartTotals formatAmount data).
Proof.
  apply (structural_CartTotals (fun A => fails_in_formatter formatAmount _)
           (fails_in_formatter_ret _) (fails_in_formatter_bind _));
    intros; apply fails_in_formatter_getAmount;
    eexists; (split; [ | reflexivity]); simpl; auto 10.
Qed.


(** X2.  When the formatter throws for the subtotal, the component throws
    the same exception after that single call: the subtotal is formatted
    first and nothing is formatted after a failure. *)
Theorem X2_fails_on_first_amount data st e w' :
  formatAmount (args_for data (Cart.subtotal data)) (world st) = (Thrown e, w') ->
  CartTotals formatAmount data st =
    (Thrown e, {| world := w';
                  calls := calls st ++ [args_for data (Cart.subtotal data)] |}).
Proof.
  intros Hthrow. unfold args_for in Hthrow.
  cbv beta iota zeta
      delta [CartTotals elem expr text getAmount call_formatAmount
             sequence bind ret].
  rewrite Hthrow. reflexivity.
Qed.

(** ** Calls and rows *)

(** X3.  A run that returns has called the formatter once for each row of
    its tree and in the order of the rows, never for a hidden row, and the
    raw value a row exposes is the amount that was handed to the formatter
    for it. *)
Theorem X3_one_call_per_row data st tree st' :
  CartTotals formatAmount data st = (Returned tree, st') ->
  exists new,
    calls st' = (calls st ++ new)%list /\
    map DisplayRow.raw (rows tree) =
      map (fun args => Some (PNum (FormatArgs.amount args))) new /\
    List.length new =
      4 + (if ToBoolean (Cart.discount_total data) then 1 else 0)
        + (if ToBoolean (Cart.gift_card_total data) then 1 else 0).
Proof.
  intros Hrun.
  pose proof (CartTotals_calls _ _ _ _ Hrun) as Hcalls.
  rows_cases Hrun;
    (eexists; split; [exact Hcalls | split; reflexivity]).
Qed.

Lemma or_zero_not_NaN f : isNaN (or_zero f) = false.
Proof. destruct f as [ | | [sg | sg | | sg m e]]; reflexivity. Qed.

Lemma or_zero_not_negative_zero f : or_zero f <> S754_zero true.
Proof. destruct f as [ | | [sg | sg | | sg m e]]; discriminate. Qed.

(** X4.  The formatter is never handed [NaN] or [-0], whether the run
    returns or throws, and no row of a returned tree exposes one of them
    as its raw value. *)
Theorem X4_amounts_are_never_NaN data st :
  (exists new,
     calls (snd (CartTotals formatAmount data st)) = (calls st ++ new)%list /\
     Forall (fun args => isNaN (FormatArgs.amount args) = false /\
                         FormatArgs.amount args <> S754_zero true) new) /\
  (forall tree st',
     CartTotals formatAmount data st = (Returned tree, st') ->
     Forall (fun r => exists n, DisplayRow.raw r = Some (PNum n) /\
                                isNaN n = false /\ n <> S754_zero true)
            (rows tree)).
Proof.
  split.
  - apply (structural_CartTotals (fun A => logs _) (logs_ret _) (logs_bind _));
      intros; apply logs_getAmount;
      (split; [apply or_zero_not_NaN | apply or_zero_not_negative_zero]).
  - intros tree st' Hrun.
    rows_cases Hrun;
      repeat (apply Forall_cons;
              [eexists; split; [reflexivity | ];
               split; [apply or_zero_not_NaN | apply or_zero_not_negative_zero]
              | ]);
      apply Forall_nil.
Qed.

(** X5.  The rows of a returned tree carry the test identifiers
    [cart-subtotal], [cart-discount], [cart-shipping], [cart-taxes],
    [cart-gift-card-amount], [cart-total] in this order, those of hidden
    rows left out, and no identifier occurs twice. *)
Theorem X5_test_identifiers data st tree st' :
  CartTotals formatAmount data st = (Returned tree, st') ->
  map DisplayRow.testid (rows tree) =
    (["cart-subtotal"]
     ++ (if ToBoolean (Cart.discount_total data) then ["cart-discount"] else [])
     ++ ["cart-shipping"; "cart-taxes"]
     ++ (if ToBoolean (Cart.gift_card_total data)
         then ["cart-gift-card-amount"] else [])
     ++ ["cart-total"])%list /\
  NoDup (map DisplayRow.testid (rows tree)).
Proof.
  intros Hrun.
  rows_cases Hrun; (split; [reflexivity | ]);
    cbn [map DisplayRow.testid];
    repeat (apply NoDup_cons;
            [cbn [In]; intros Hin;
             repeat (destruct Hin as [Hin | Hin]; [discriminate Hin | ]);
             exact Hin
            | ]);
    apply NoDup_nil.
Qed.

(** ** Fields the component cannot tell apart *)

Lemma same_display_ToBoolean f g : same_display f g -> ToBoolean f = ToBoolean g.
Proof. intros [-> | [-> ->]]; reflexivity. Qed.

Lemma same_display_or_zero f g : same_display f g -> or_zero f = or_zero g.
Proof.
  intros [-> | [Hf Hg]]; [reflexivity | ].
  rewrite (or_zero_falsy f Hf), (or_zero_falsy g Hg). reflexivity.
Qed.

(** X6.  Two records with the same region whose fields are pairwise equal
    or both falsy ([null], [undefined], [NaN], [0], [-0]) are rendered
    alike: same result, same calls, same world. *)
Theorem X6_falsy_values_render_alike data data' st :
  display_equivalent data data' ->
  CartTotals formatAmount data st = CartTotals formatAmount data' st.
Proof.
  intros (Hregion & Hsubtotal & Hdiscount & Hgift & Htax & Hshipping & Htotal).
  unfold CartTotals, getAmount.
  rewrite Hregion.
  rewrite (same_display_ToBoolean _ _ Hdiscount), (same_display_ToBoolean _ _ Hgift).
  rewrite (same_display_or_zero _ _ Hsubtotal), (same_display_or_zero _ _ Hdiscount),
    (same_display_or_zero _ _ Hgift), (same_display_or_zero _ _ Htax),
    (same_display_or_zero _ _ Hshipping), (same_display_or_zero _ _ Htotal).
  reflexivity.
Qed.

(** ** Raw values *)

Lemma rows_raw_of_field data st tree st' :
  CartTotals formatAmount data st = (Returned tree, st') ->
  forall L f r,
    In (L, f) (labelled_fields data) ->
    In r (rows tree) -> DisplayRow.label r = L ->
    DisplayRow.raw r = Some (PNum (or_zero f)) /\
    (L = "Discount" \/ L = "Gift card" -> ToBoolean f = true).
Proof.
  intros Hrun L f r HL Hr Hlabel.
  rows_cases Hrun;
    simpl in HL, Hr;
    repeat (destruct Hr as [<- | Hr]; [ | ]); try contradiction;
    simpl in Hlabel; subst L;
    repeat (destruct HL as [HL | HL]; [ | ]); try contradiction;
    try discriminate HL;
    injection HL as <-;
    (split; [reflexivity | intros [Hopt | Hopt]; first [discriminate Hopt | assumption]]).
Qed.

(** X7.  The raw value of every row of a returned tree is [f || 0] for the
    row's own field [f]: no row is computed from another field, the total
    is shown as supplied.  A Discount or Gift card row that is shown
    exposes its field itself, a number that is neither zero nor [NaN]. *)
Theorem X7_raw_value_is_own_field data st tree st' :
  CartTotals formatAmount data st = (Returned tree, st') ->
  forall L f r,
    In (L, f) (labelled_fields data) ->
    In r (rows tree) -> DisplayRow.label r = L ->
    DisplayRow.raw r = Some (PNum (or_zero f)) /\
    (L = "Discount" \/ L = "Gift card" ->
     exists n, f = Num n /\ DisplayRow.raw r = Some (PNum n) /\
               isNaN n = false /\ SFeqb n zero = false).
Proof.
  intros Hrun L f r HL Hr Hlabel.
  destruct (rows_raw_of_field _ _ _ _ Hrun L f r HL Hr Hlabel) as [Hraw Hopt].
  split; [exact Hraw | ].
  intros HLopt. specialize (Hopt HLopt).
  destruct (proj1 (ToBoolean_nonzero_number f) Hopt) as (n & -> & Hnan & Hz).
  exists n. rewrite Hraw, (or_zero_truthy n Hopt). auto.
Qed.

End Facts.

(** * The component at work on concrete carts *)

Example scenario_A_rows :
  map (fun r => (DisplayRow.label r, DisplayRow.amount r)) (rows (sample_tree scenario_A)) =
    [("Subtotal", "1000 usd"); ("Shipping", "500 usd");
     ("Taxes", "100 usd"); ("Total", "1600 usd")].
Proof. vm_compute. reflexivity. Qed.

Example scenario_B_rows :
  map (fun r => (DisplayRow.label r, DisplayRow.amount r)) (rows (sample_tree scenario_B)) =
    [("Subtotal", "1000 eur"); ("Discount", "- 200 eur"); ("Shipping", "0 eur");
     ("Taxes", "80 eur"); ("Total", "880 eur")].
Proof. vm_compute. reflexivity. Qed.

Example negative_deductions_rows :
  map (fun r => (DisplayRow.label r, DisplayRow.amount r))
      (rows (sample_tree negative_deductions)) =
    [("Subtotal", "1000 eur"); ("Discount", "- -200 eur"); ("Shipping", "0 eur");
     ("Taxes", "80 eur"); ("Gift card", "- -200 eur"); ("Total", "1480 eur")].
Proof. vm_compute. reflexivity. Qed.

(** The sample formatter returns for every whole amount. *)
Ltac sample_formattable :=
  unfold all_formattable; repeat apply conj;
  try match goal with
      | |- ToBoolean _ = true -> _ =>
          let H := fresh in
          intros H; first [vm_compute in H; discriminate H | clear H]
      end;
  try (intros w; eexists _, _; reflexivity).

Ltac sample_returned := vm_compute; reflexivity.

Lemma C1_witness :
  all_formattable sample_formatAmount scenario_B /\
  CartTotals sample_formatAmount scenario_B sample_state =
    (Returned (sample_tree scenario_B), sample_final scenario_B) /\
  returns (CartTotals sample_formatAmount scenario_B) /\
  (has_row "Discount" (rows (sample_tree scenario_B)) = true <->
   nonzero_number (Cart.discount_total scenario_B)) /\
  (has_row "Gift card" (rows (sample_tree scenario_B)) = true <->
   nonzero_number (Cart.gift_card_total scenario_B)) /\
  (Cart.gift_card_total scenario_B = Null ->
   has_row "Gift card" (rows (sample_tree scenario_B)) = false).
Proof.
  assert (Hfmt : all_formattable sample_formatAmount scenario_B)
    by sample_formattable.
  assert (Hrun : CartTotals sample_formatAmount scenario_B sample_state =
                 (Returned (sample_tree scenario_B), sample_final scenario_B))
    by sample_returned.
  destruct (C1_optional_rows_iff_truthy sample_formatAmount scenario_B sample_state)
    as [Hreturns Hrows].
  destruct (Hrows _ _ Hrun) as (Hdiscount & Hgift & Hhidden).
  split; [exact Hfmt | ]. split; [exact Hrun | ]. split; [exact (Hreturns Hfmt) | ].
  split; [exact Hdiscount | ]. split; [exact Hgift | ].
  exact (proj2 (Hhidden Null (or_introl (or_introl eq_refl)))).
Defined.

(** C2 as the specification states it fails on [NaN]: the formatter is
    handed [0], and [NaN ?? 0] is [NaN]. *)
Lemma C2_counterexample :
  map FormatArgs.amount
      (calls (snd (getAmount sample_formatAmount scenario_B (Num S754_nan) sample_state)))
    = [zero] /\
  nullish_zero (Num S754_nan) = S754_nan /\
  map FormatArgs.amount
      (calls (snd (getAmount sample_formatAmount scenario_B (Num S754_nan) sample_state)))
    <> [nullish_zero (Num S754_nan)].
Proof.
  split; [reflexivity | ]. split; [reflexivity | ].
  vm_compute. discriminate.
Qed.

Lemma C2_witness :
  let f := Num (of_Z 1000) in
  isNaN (of_Z 1000) = false /\ SFeqb (of_Z 1000) zero = false /\
  f <> Num S754_nan /\ f <> Num (S754_zero true) /\
  calls (snd (getAmount sample_formatAmount scenario_B f sample_state)) =
    [ {| FormatArgs.amount := of_Z 1000;
         FormatArgs.region := "eur";
         FormatArgs.includeTaxes := false |} ] /\
  or_zero f = of_Z 1000 /\
  or_zero f = nullish_zero f.
Proof.
  intros f.
  destruct (C2_effective_value_or_zero sample_formatAmount scenario_B f sample_state)
    as (Hcalls & _ & Hnumber & Hnullish).
  assert (Hnan : isNaN (of_Z 1000) = false) by reflexivity.
  assert (Hz : SFeqb (of_Z 1000) zero = false) by reflexivity.
  assert (H1 : f <> Num S754_nan) by (vm_compute; discriminate).
  assert (H2 : f <> Num (S754_zero true)) by (vm_compute; discriminate).
  split; [exact Hnan | ]. split; [exact Hz | ].
  split; [exact H1 | ]. split; [exact H2 | ].
  split; [ | split].
  - rewrite Hcalls. rewrite (Hnumber (of_Z 1000) eq_refl Hnan Hz). reflexivity.
  - exact (Hnumber (of_Z 1000) eq_refl Hnan Hz).
  - exact (Hnullish H1 H2).
Defined.

Lemma C3_witness :
  let subtotal_row :=
    DisplayRow.mk "Subtotal" "cart-subtotal" (Some (PNum zero)) "0 usd" in
  CartTotals sample_formatAmount scenario_C sample_state =
    (Returned (sample_tree scenario_C), sample_final scenario_C) /\
  In ("Subtotal", Null) (labelled_fields scenario_C) /\
  nullish Null /\
  In subtotal_row (rows (sample_tree scenario_C)) /\
  Forall (fun lf => nullish (snd lf)) (labelled_fields scenario_C) /\
  formattable sample_formatAmount scenario_C Null /\
  DisplayRow.raw subtotal_row = Some (PNum zero) /\
  (exists r, find_row "Subtotal" (rows (sample_tree scenario_C)) = Some r /\
             DisplayRow.raw r = Some (PNum zero)) /\
  (exists tree st' s1 s3 s4 s6,
     CartTotals sample_formatAmount scenario_C sample_state = (Returned tree, st') /\
     rows tree =
       [DisplayRow.mk "Subtotal" "cart-subtotal" (Some (PNum zero)) s1;
        DisplayRow.mk "Shipping" "cart-shipping" (Some (PNum zero)) s3;
        DisplayRow.mk "Taxes" "cart-taxes" (Some (PNum zero)) s4;
        DisplayRow.mk "Total" "cart-total" (Some (PNum zero)) s6] /\
     Forall (formats sample_formatAmount scenario_C Null) [s1; s3; s4; s6]).
Proof.
  intros subtotal_row.
  assert (Hrun : CartTotals sample_formatAmount scenario_C sample_state =
                 (Returned (sample_tree scenario_C), sample_final scenario_C))
    by sample_returned.
  assert (Hfield : In ("Subtotal", Null) (labelled_fields scenario_C))
    by (simpl; auto).
  assert (Hnull : nullish Null) by (left; reflexivity).
  assert (Hrow : In subtotal_row (rows (sample_tree scenario_C)))
    by (vm_compute; auto).
  assert (Hall : Forall (fun lf => nullish (snd lf)) (labelled_fields scenario_C))
    by (repeat constructor).
  assert (Hzero : formattable sample_formatAmount scenario_C Null)
    by (intros w; eexists _, _; reflexivity).
  destruct (C3_absent_fields_show_zero sample_formatAmount scenario_C)
    as (Hrows & _ & Hscenario).
  destruct (Hrows sample_state _ _ Hrun) as [Hraw Hfixed].
  split; [exact Hrun | ]. split; [exact Hfield | ]. split; [exact Hnull | ].
  split; [exact Hrow | ]. split; [exact Hall | ]. split; [exact Hzero | ].
  split; [exact (Hraw "Subtotal" Null subtotal_row Hfield Hnull Hrow eq_refl) | ].
  split; [apply (Hfixed "Subtotal" Null Hfield Hnull); simpl; auto | ].
  exact (Hscenario Hall Hzero sample_state).
Defined.

Lemma C4_witness :
  all_formattable sample_formatAmount scenario_C /\
  CartTotals sample_formatAmount scenario_C sample_state =
    (Returned (sample_tree scenario_C), sample_final scenario_C) /\
  In "Shipping" ["Subtotal"; "Shipping"; "Taxes"; "Total"] /\
  returns (CartTotals sample_formatAmount scenario_C) /\
  has_row "Shipping" (rows (sample_tree scenario_C)) = true.
Proof.
  assert (Hfmt : all_formattable sample_formatAmount scenario_C)
    by sample_formattable.
  assert (Hrun : CartTotals sample_formatAmount scenario_C sample_state =
                 (Returned (sample_tree scenario_C), sample_final scenario_C))
    by sample_returned.
  assert (HL : In "Shipping" ["Subtotal"; "Shipping"; "Taxes"; "Total"])
    by (simpl; auto).
  destruct (C4_fixed_rows_always_present sample_formatAmount scenario_C sample_state)
    as [Hreturns Hrows].
  split; [exact Hfmt | ]. split; [exact Hrun | ]. split; [exact HL | ].
  split; [exact (Hreturns Hfmt) | exact (Hrows _ _ Hrun "Shipping" HL)].
Defined.

Lemma C5_witness :
  all_formattable sample_formatAmount scenario_B /\
  CartTotals sample_formatAmount scenario_B sample_state =
    (Returned (sample_tree scenario_B), sample_final scenario_B) /\
  returns (CartTotals sample_formatAmount scenario_B) /\
  map DisplayRow.label (rows (sample_tree scenario_B)) =
    ["Subtotal"; "Discount"; "Shipping"; "Taxes"; "Total"].
Proof.
  assert (Hfmt : all_formattable sample_formatAmount scenario_B)
    by sample_formattable.
  assert (Hrun : CartTotals sample_formatAmount scenario_B sample_state =
                 (Returned (sample_tree scenario_B), sample_final scenario_B))
    by sample_returned.
  destruct (C5_rows_in_fixed_order sample_formatAmount scenario_B sample_state)
    as [Hreturns Hrows].
  split; [exact Hfmt | ]. split; [exact Hrun | ].
  split; [exact (Hreturns Hfmt) | exact (Hrows _ _ Hrun)].
Defined.

Lemma C6_witness :
  let discount_row :=
    DisplayRow.mk "Discount" "cart-discount" (Some (PNum (of_Z 200))) "- 200 eur" in
  let subtotal_row :=
    DisplayRow.mk "Subtotal" "cart-subtotal" (Some (PNum (of_Z 1000))) "1000 eur" in
  all_formattable sample_formatAmount scenario_B /\
  CartTotals sample_formatAmount scenario_B sample_state =
    (Returned (sample_tree scenario_B), sample_final scenario_B) /\
  In discount_row (rows (sample_tree scenario_B)) /\
  In subtotal_row (rows (sample_tree scenario_B)) /\
  returns (CartTotals sample_formatAmount scenario_B) /\
  (exists s, formats sample_formatAmount scenario_B (Cart.discount_total scenario_B) s /\
             DisplayRow.amount discount_row = "- " ++ s) /\
  formats sample_formatAmount scenario_B (Cart.subtotal scenario_B)
          (DisplayRow.amount subtotal_row).
Proof.
  intros discount_row subtotal_row.
  assert (Hfmt : all_formattable sample_formatAmount scenario_B)
    by sample_formattable.
  assert (Hrun : CartTotals sample_formatAmount scenario_B sample_state =
                 (Returned (sample_tree scenario_B), sample_final scenario_B))
    by sample_returned.
  assert (Hd : In discount_row (rows (sample_tree scenario_B)))
    by (vm_compute; auto).
  assert (Hs : In subtotal_row (rows (sample_tree scenario_B)))
    by (vm_compute; auto).
  destruct (C6_negative_marker sample_formatAmount scenario_B sample_state)
    as [Hreturns Hrows].
  split; [exact Hfmt | ]. split; [exact Hrun | ].
  split; [exact Hd | ]. split; [exact Hs | ]. split; [exact (Hreturns Hfmt) | ].
  split.
  - apply (Hrows _ _ Hrun discount_row Hd). reflexivity.
  - apply (Hrows _ _ Hrun subtotal_row Hs). reflexivity.
Defined.

Lemma C7_witness :
  (forall args w, snd (quiet_formatAmount args w) = w) /\
  (exists new,
     calls (snd (CartTotals quiet_formatAmount scenario_B sample_state)) =
       (calls sample_state ++ new)%list /\
     Forall (fun args => FormatArgs.region args = "eur" /\
                         FormatArgs.includeTaxes args = false) new) /\
  world (snd (CartTotals quiet_formatAmount scenario_B sample_state)) = 0.
Proof.
  assert (Hquiet : forall args w, snd (quiet_formatAmount args w) = w)
    by (intros args w; reflexivity).
  destruct (C7_calls_pass_region_and_no_taxes quiet_formatAmount scenario_B sample_state)
    as [Hcalls Hworld].
  split; [exact Hquiet | ]. split; [exact Hcalls | exact (Hworld Hquiet)].
Defined.

Lemma C8_witness :
  referentially_transparent sample_formatAmount /\
  fst (CartTotals sample_formatAmount scenario_B sample_state) =
    fst (CartTotals sample_formatAmount scenario_B (mkState 7 [])) /\
  fst (CartTotals sample_formatAmount scenario_B
         (snd (CartTotals sample_formatAmount scenario_B sample_state))) =
    fst (CartTotals sample_formatAmount scenario_B sample_state).
Proof.
  assert (RT : referentially_transparent sample_formatAmount)
    by (intros args w1 w2; reflexivity).
  destruct (C8_deterministic_and_idempotent sample_formatAmount scenario_B
              sample_state (mkState 7 []) RT) as (Hsame & Hagain & _).
  split; [exact RT | ]. split; [exact Hsame | exact Hagain].
Defined.

Lemma C9_witness :
  let n := of_Z (-200) in
  let passed := {| FormatArgs.amount := n;
                   FormatArgs.region := "eur";
                   FormatArgs.includeTaxes := false |} in
  negative n = true /\
  all_formattable sample_formatAmount negative_deductions /\
  CartTotals sample_formatAmount negative_deductions sample_state =
    (Returned (sample_tree negative_deductions), sample_final negative_deductions) /\
  Cart.discount_total negative_deductions = Num n /\
  returns (CartTotals sample_formatAmount negative_deductions) /\
  exists r s,
    find_row "Discount" (rows (sample_tree negative_deductions)) = Some r /\
    DisplayRow.raw r = Some (PNum n) /\
    (exists w w', sample_formatAmount passed w = (Returned s, w')) /\
    In passed (calls (sample_final negative_deductions)) /\
    DisplayRow.amount r = "- " ++ s /\
    (forall s', s = "-" ++ s' -> DisplayRow.amount r = "- -" ++ s').
Proof.
  intros n passed.
  assert (Hneg : negative n = true) by reflexivity.
  assert (Hfmt : all_formattable sample_formatAmount negative_deductions)
    by sample_formattable.
  assert (Hrun : CartTotals sample_formatAmount negative_deductions sample_state =
                 (Returned (sample_tree negative_deductions),
                  sample_final negative_deductions))
    by sample_returned.
  assert (Hfield : Cart.discount_total negative_deductions = Num n) by reflexivity.
  destruct (C9_negative_deduction_shown_twice_negated sample_formatAmount
              negative_deductions sample_state n Hneg) as [Hreturns Hrows].
  split; [exact Hneg | ]. split; [exact Hfmt | ]. split; [exact Hrun | ].
  split; [exact Hfield | ]. split; [exact (Hreturns Hfmt) | ].
  exact (proj1 (Hrows _ _ Hrun) Hfield).
Defined.

Lemma C10_witness :
  let subtotal_row :=
    DisplayRow.mk "Subtotal" "cart-subtotal" (Some (PNum zero)) "0 eur" in
  all_formattable sample_formatAmount all_NaN /\
  CartTotals sample_formatAmount all_NaN sample_state =
    (Returned (sample_tree all_NaN), sample_final all_NaN) /\
  Cart.discount_total all_NaN = Num S754_nan /\
  Cart.gift_card_total all_NaN = Num S754_nan /\
  In ("Subtotal", Num S754_nan) (labelled_fields all_NaN) /\
  In subtotal_row (rows (sample_tree all_NaN)) /\
  returns (CartTotals sample_formatAmount all_NaN) /\
  has_row "Discount" (rows (sample_tree all_NaN)) = false /\
  has_row "Gift card" (rows (sample_tree all_NaN)) = false /\
  DisplayRow.raw subtotal_row = Some (PNum zero) /\
  formats sample_formatAmount all_NaN Undefined (DisplayRow.amount subtotal_row).
Proof.
  intros subtotal_row.
  assert (Hfmt : all_formattable sample_formatAmount all_NaN)
    by sample_formattable.
  assert (Hrun : CartTotals sample_formatAmount all_NaN sample_state =
                 (Returned (sample_tree all_NaN), sample_final all_NaN))
    by sample_returned.
  assert (Hfield : In ("Subtotal", Num S754_nan) (labelled_fields all_NaN))
    by (simpl; auto).
  assert (Hrow : In subtotal_row (rows (sample_tree all_NaN)))
    by (vm_compute; auto).
  destruct (C10_NaN_treated_as_absent sample_formatAmount all_NaN)
    as (_ & _ & Hrows & Hreturns).
  destruct (Hrows sample_state _ _ Hrun) as (Hdiscount & Hgift & Hraw).
  split; [exact Hfmt | ]. split; [exact Hrun | ].
  split; [reflexivity | ]. split; [reflexivity | ].
  split; [exact Hfield | ]. split; [exact Hrow | ]. split; [exact (Hreturns Hfmt) | ].
  split; [exact (Hdiscount eq_refl) | ]. split; [exact (Hgift eq_refl) | ].
  exact (Hraw "Subtotal" (Num S754_nan) subtotal_row Hfield eq_refl Hrow eq_refl).
Defined.

(** * The further properties on concrete carts *)

Example infinite_total_throws :
  fst (CartTotals sample_formatAmount infinite_total sample_state) = Thrown "RangeError" /\
  List.length (calls (sample_final infinite_total)) = 5.
Proof. split; vm_compute; reflexivity. Qed.


Lemma X2_witness :
  sample_formatAmount (args_for infinite_subtotal (Cart.subtotal infinite_subtotal))
                      (world sample_state) = (Thrown "RangeError", 1) /\
  CartTotals sample_formatAmount infinite_subtotal sample_state =
    (Thrown "RangeError",
     {| world := 1;
        calls := calls sample_state
                 ++ [args_for infinite_subtotal (Cart.subtotal infinite_subtotal)] |}).
Proof.
  assert (Hthrow : sample_formatAmount
                     (args_for infinite_subtotal (Cart.subtotal infinite_subtotal))
                     (world sample_state) = (Thrown "RangeError", 1))
    by reflexivity.
  split; [exact Hthrow | ].
  exact (X2_fails_on_first_amount sample_formatAmount infinite_subtotal
           sample_state "RangeError" 1 Hthrow).
Defined.

Lemma X3_witness :
  CartTotals sample_formatAmount scenario_B sample_state =
    (Returned (sample_tree scenario_B), sample_final scenario_B) /\
  exists new,
    calls (sample_final scenario_B) = (calls sample_state ++ new)%list /\
    map DisplayRow.raw (rows (sample_tree scenario_B)) =
      map (fun args => Some (PNum (FormatArgs.amount args))) new /\
    List.length new =
      4 + (if ToBoolean (Cart.discount_total scenario_B) then 1 else 0)
        + (if ToBoolean (Cart.gift_card_total scenario_B) then 1 else 0).
Proof.
  assert (Hrun : CartTotals sample_formatAmount scenario_B sample_state =
                 (Returned (sample_tree scenario_B), sample_final scenario_B))
    by sample_returned.
  split; [exact Hrun | ].
  exact (X3_one_call_per_row sample_formatAmount scenario_B sample_state _ _ Hrun).
Defined.

Lemma X4_witness :
  CartTotals sample_formatAmount all_NaN sample_state =
    (Returned (sample_tree all_NaN), sample_final all_NaN) /\
  (exists new,
     calls (snd (CartTotals sample_formatAmount all_NaN sample_state)) =
       (calls sample_state ++ new)%list /\
     Forall (fun args => isNaN (FormatArgs.amount args) = false /\
                         FormatArgs.amount args <> S754_zero true) new) /\
  Forall (fun r => exists n, DisplayRow.raw r = Some (PNum n) /\
                             isNaN n = false /\ n <> S754_zero true)
         (rows (sample_tree all_NaN)).
Proof.
  assert (Hrun : CartTotals sample_formatAmount all_NaN sample_state =
                 (Returned (sample_tree all_NaN), sample_final all_NaN))
    by sample_returned.
  destruct (X4_amounts_are_never_NaN sample_formatAmount all_NaN sample_state)
    as [Hcalls Hrows].
  split; [exact Hrun | ]. split; [exact Hcalls | exact (Hrows _ _ Hrun)].
Defined.

Lemma X5_witness :
  CartTotals sample_formatAmount negative_deductions sample_state =
    (Returned (sample_tree negative_deductions), sample_final negative_deductions) /\
  map DisplayRow.testid (rows (sample_tree negative_deductions)) =
    ["cart-subtotal"; "cart-discount"; "cart-shipping"; "cart-taxes";
     "cart-gift-card-amount"; "cart-total"] /\
  NoDup (map DisplayRow.testid (rows (sample_tree negative_deductions))).
Proof.
  assert (Hrun : CartTotals sample_formatAmount negative_deductions sample_state =
                 (Returned (sample_tree negative_deductions),
                  sample_final negative_deductions))
    by sample_returned.
  split; [exact Hrun | ].
  exact (X5_test_identifiers sample_formatAmount negative_deductions
           sample_state _ _ Hrun).
Defined.

Lemma X6_witness :
  display_equivalent scenario_B scenario_B_falsy /\
  CartTotals sample_formatAmount scenario_B sample_state =
    CartTotals sample_formatAmount scenario_B_falsy sample_state.
Proof.
  assert (Hequiv : display_equivalent scenario_B scenario_B_falsy).
  { unfold display_equivalent, same_display. repeat apply conj;
      first [reflexivity | left; reflexivity | right; split; reflexivity]. }
  split; [exact Hequiv | ].
  exact (X6_falsy_values_render_alike sample_formatAmount scenario_B
           scenario_B_falsy sample_state Hequiv).
Defined.

Lemma X7_witness :
  let discount_row :=
    DisplayRow.mk "Discount" "cart-discount" (Some (PNum (of_Z 200))) "- 200 eur" in
  CartTotals sample_formatAmount scenario_B sample_state =
    (Returned (sample_tree scenario_B), sample_final scenario_B) /\
  In ("Discount", Num (of_Z 200)) (labelled_fields scenario_B) /\
  In discount_row (rows (sample_tree scenario_B)) /\
  DisplayRow.raw discount_row = Some (PNum (or_zero (Num (of_Z 200)))) /\
  exists n, Num (of_Z 200) = Num n /\ DisplayRow.raw discount_row = Some (PNum n) /\
            isNaN n = false /\ SFeqb n zero = false.
Proof.
  intros discount_row.
  assert (Hrun : CartTotals sample_formatAmount scenario_B sample_state =
                 (Returned (sample_tree scenario_B), sample_final scenario_B))
    by sample_returned.
  assert (Hfield : In ("Discount", Num (of_Z 200)) (labelled_fields scenario_B))
    by (simpl; auto).
  assert (Hrow : In discount_row (rows (sample_tree scenario_B)))
    by (vm_compute; auto).
  destruct (X7_raw_value_is_own_field sample_formatAmount scenario_B sample_state
              _ _ Hrun "Discount" (Num (of_Z 200)) discount_row Hfield Hrow eq_refl)
    as [Hraw Hoptional].
  split; [exact Hrun | ]. split; [exact Hfield | ]. split; [exact Hrow | ].
  split; [exact Hraw | exact (Hoptional (or_introl eq_refl))].
Defined.
